(** * A shallow embedding of the molmo2_hack demo pipeline

    The three scripts under [pkgs/molmo2_hack/scripts] are thin sequential
    wrappers around the file system, an external media tool, a dataset
    download and a pretrained model.  Each [main] is embedded below as a
    computation in a small state-and-exception monad over a file-system
    world; the third-party calls ([hf_hub_download], [tarfile],
    [subprocess.run], [PIL], [transformers]) are parameters of the
    corresponding section. *)

From Stdlib Require Import Strings.Byte Strings.Ascii.
From stdpp Require Import gmap strings list sorting pretty.

(** ** Python built-ins used by the scripts *)

Module Py.

(** [str.lower], on the ASCII range. *)
Definition lower_ascii (c : ascii) : ascii :=
  let n := Ascii.N_of_ascii c in
  if ((65 <=? n) && (n <=? 90))%N then Ascii.ascii_of_N (n + 32) else c.

Fixpoint lower (s : string) : string :=
  match s with
  | "" => ""
  | String c s' => String (lower_ascii c) (lower s')
  end.

(** [s.endswith(suffix)]: some tail of [s] is [suffix]. *)
Fixpoint endswith (s suffix : string) : bool :=
  if String.eqb s suffix then true
  else match s with
       | "" => false
       | String _ s' => endswith s' suffix
       end.

(** [pat in s]: [pat] is a prefix of some tail of [s]. *)
Fixpoint str_in (pat s : string) : bool :=
  if String.prefix pat s then true
  else match s with
       | "" => false
       | String _ s' => str_in pat s'
       end.

(** The position at which the slices [l[:n]] and [l[n:]] cut a sequence
    of length [len]: a negative bound counts from the end, and both
    directions are clamped to the sequence. *)
Definition slice_index (n : Z) (len : nat) : nat :=
  Z.to_nat (if (n <? 0)%Z then Z.max (Z.of_nat len + n) 0
            else Z.min n (Z.of_nat len)).

(** [l[:n]] *)
Definition slice_to {A} (n : Z) (l : list A) : list A :=
  take (slice_index n (length l)) l.

(** [l[n:]] *)
Definition slice_from {A} (n : Z) (l : list A) : list A :=
  drop (slice_index n (length l)) l.

(** [sorted] on paths of one directory: ascending string order. *)
Definition sorted (l : list string) : list string :=
  merge_sort String.le l.

(** ["%04d" % n]: decimal, padded with zeros to at least four digits. *)
Definition fmt_04d (n : nat) : string :=
  let s := pretty n in
  String.concat "" (replicate (4 - String.length s) "0") +:+ s.

(** [prefix s] with [prefix] removed, when [s] starts with it. *)
Fixpoint strip_prefix (pre s : string) : option string :=
  match pre, s with
  | "", _ => Some s
  | String a pre', String b s' =>
      if Ascii.eqb a b then strip_prefix pre' s' else None
  | String _ _, "" => None
  end.

(** [s] with [suffix] removed, when [s] ends with it. *)
Fixpoint strip_suffix (s suffix : string) : option string :=
  if String.eqb s suffix then Some ""
  else match s with
       | "" => None
       | String c s' => String c <$> strip_suffix s' suffix
       end.

End Py.

(** ** The file-system world and the effect monad *)

Abbreviation bytes := (list byte).

(** [pathlib.Path] values are kept as their normalised string. *)
Abbreviation Path := string (only parsing).

(** [PIL.Image] after [convert("RGB")]: the decoded pixel buffer. *)
Record Image := RGB { pixels : bytes }.

(** One entry of a chat message's content list. *)
Inductive content_item :=
| TextItem (text : string)
| ImageItem (image : Image).

(** [{"role": ..., "content": [...]}] *)
Record message := Message { role : string; content : list content_item }.

(** [tarfile.TarInfo], reduced to what the script reads: the member name
    and, for extraction, its payload. *)
Record TarInfo := Member { name : string; payload : bytes }.

Inductive event :=
| EvMkdir (p : Path)
| EvWrite (p : Path) (data : bytes)
| EvUnlink (p : Path)
| EvSpawn (cmd : list string)
| EvExtract (member : TarInfo) (dest : Path)
| EvGenerate (messages : list message) (max_new_tokens : Z)
| EvPrint (line : string).

Inductive exn :=
| FileNotFoundError (msg : string)
| FileExistsError (p : Path)
| RuntimeError (msg : string)
| CalledProcessError (cmd : list string)
| ExternalError (what : string).

(** The world a script runs in: regular files by path, the directories
    that exist, and the chronological log of the effects performed. *)
Record world := World {
  files : gmap string bytes;
  dirs : gset string;
  log : list event
}.

Inductive res (A : Type) :=
| Ok (a : A)
| Raise (e : exn).
Arguments Ok {A} a.
Arguments Raise {A} e.

(** A script step: it returns or raises, and in both cases leaves the
    world its effects made. *)
Definition M (A : Type) : Type := world → res A * world.

#[global] Instance M_ret : MRet M := λ A a w, (Ok a, w).
#[global] Instance M_bind : MBind M := λ A B k m w,
  match m w with
  | (Ok a, w') => k a w'
  | (Raise e, w') => (Raise e, w')
  end.

#[global] Instance M_fmap : FMap M := λ A B f m w,
  match m w with
  | (Ok a, w') => (Ok (f a), w')
  | (Raise e, w') => (Raise e, w')
  end.

Definition raise {A} (e : exn) : M A := λ w, (Raise e, w).

Definition emit (e : event) : M unit := λ w,
  (Ok tt, World (files w) (dirs w) (log w ++ [e])).

(** [Path.exists] *)
Definition path_exists (p : Path) : M bool := λ w,
  (Ok (bool_decide (is_Some (files w !! p)) || bool_decide (p ∈ dirs w)), w).

(** [Path.mkdir(parents=True, exist_ok=True)]; only the directory itself
    is recorded, its ancestors are not tracked. *)
Definition mkdir (p : Path) : M unit := λ w,
  match files w !! p with
  | Some _ => (Raise (FileExistsError p), w)
  | None => (Ok tt, World (files w) ({[p]} ∪ dirs w) (log w ++ [EvMkdir p]))
  end.

(** [Path.write_bytes] *)
Definition write_bytes (p : Path) (data : bytes) : M unit := λ w,
  (Ok tt, World (<[p := data]> (files w)) (dirs w) (log w ++ [EvWrite p data])).

(** [Path.read_bytes] *)
Definition read_bytes (p : Path) : M bytes := λ w,
  match files w !! p with
  | Some data => (Ok data, w)
  | None => (Raise (FileNotFoundError p), w)
  end.

(** [Path.unlink] *)
Definition unlink (p : Path) : M unit := λ w,
  match files w !! p with
  | Some _ => (Ok tt, World (delete p (files w)) (dirs w) (log w ++ [EvUnlink p]))
  | None => (Raise (FileNotFoundError p), w)
  end.

(** [print] *)
Definition print (line : string) : M unit := emit (EvPrint line).

(** [d / name] *)
Definition path_join (d : Path) (name : string) : Path :=
  match name with
  | String "/"%char _ => name
  | _ => d +:+ "/" +:+ name
  end.

(** [p] is an entry of directory [d] whose name ends in [suffix]. *)
Definition matches (d : Path) (suffix : string) (p : Path) : bool :=
  match Py.strip_prefix (d +:+ "/") p with
  | Some entry => negb (Py.str_in "/" entry) && Py.endswith entry suffix
  | None => false
  end.

(** The files of [d] matching ["*" ++ suffix], in directory order. *)
Definition glob_files (d : Path) (suffix : string) (fs : gmap string bytes)
  : list string :=
  filter (λ p, matches d suffix p = true) (map_to_list fs).*1.

(** [d.glob("*" + suffix)] *)
Definition glob (d : Path) (suffix : string) : M (list string) := λ w,
  (Ok (glob_files d suffix (files w)), w).

(** [for x in l: body(x)] *)
Fixpoint for_each {A} (l : list A) (body : A → M unit) : M unit :=
  match l with
  | [] => mret tt
  | x :: l' => body x ;; for_each l' body
  end.

(** ** [extract_frames.py] *)

Module extract_frames.

Record Args := {
  video : string;
  out : string;
  fps : string;       (* the float, as [str] renders it in the filter *)
  max_frames : Z;
  scale : Z
}.

Section Main.

(** [subprocess.run(cmd, check=True)] after the process is spawned:
    whatever the external tool does to the world, or the error
    raised for a non-zero exit status. *)
Variable tool : list string → M unit.

Definition subprocess_run (cmd : list string) : M unit :=
  emit (EvSpawn cmd) ;; tool cmd.

Definition main (args : Args) : M unit :=
  let video := video args in
  found ← path_exists video;
  if negb found then raise (FileNotFoundError ("Video not found: " +:+ video))
  else
    let out_dir := out args in
    mkdir out_dir ;;
    let cmd := [
      "ffmpeg";
      "-y";
      "-i"; video;
      "-vf"; "fps=" +:+ fps args +:+ ",scale=" +:+ pretty (scale args) +:+ ":-1";
      path_join out_dir "%04d.jpg"
    ] in
    print ("Running: " +:+ String.concat " " cmd) ;;
    subprocess_run cmd ;;
    frames ← Py.sorted <$> glob out_dir ".jpg";
    match frames with
    | [] => raise (RuntimeError
              "No frames extracted. Check ffmpeg install / input video.")
    | _ =>
        for_each (Py.slice_from (max_frames args) frames) unlink ;;
        kept ← Py.sorted <$> glob out_dir ".jpg";
        print ("Extracted " +:+ pretty (length kept) +:+ " frames into " +:+ out_dir)
    end.

End Main.

End extract_frames.

(** ** The media tool behind [subprocess.run] *)

(** The file the tool writes for the [i]-th frame of the pattern
    [d/%04d.jpg]. *)
Definition frame_path (d : Path) (i : nat) : Path :=
  d +:+ "/" +:+ Py.fmt_04d i +:+ ".jpg".

Fixpoint write_frames (d : Path) (i : nat) (produced : list bytes)
    (fs : gmap string bytes) : gmap string bytes :=
  match produced with
  | [] => fs
  | frame :: rest => write_frames d (S i) rest (<[frame_path d i := frame]> fs)
  end.

(** The tool's image-sequence output as the script relies on it: the last
    argument is the output pattern; the frames sampled from the video are
    written in temporal order to the pattern's files, numbered from 1,
    replacing files of the same name ([-y]); the exit status is zero. *)
Definition ffmpeg_image2 (produced : list bytes) (cmd : list string) : M unit :=
  λ w,
    match Py.strip_suffix (List.last cmd "") "/%04d.jpg" with
    | Some d => (Ok tt, World (write_frames d 1 produced (files w)) (dirs w) (log w))
    | None => (Raise (CalledProcessError cmd), w)
    end.

(** ** [download_sample_video.py] *)

(** The directories on the way to [rest], read after the prefix [acc]:
    every non-empty prefix of the path that ends before a ["/"]. *)
Fixpoint parents_from (acc rest : string) : list string :=
  match rest with
  | "" => []
  | String c rest' =>
      (if Ascii.eqb c "/" then (if String.eqb acc "" then [] else [acc]) else [])
      ++ parents_from (acc +:+ String c "") rest'
  end.

(** [os.path.dirname] and its ancestors, outermost first. *)
Definition parent_dirs (p : Path) : list string := parents_from "" p.

(** [tf.extract(member, path=d)]: the member's payload lands at
    [d / member.name], below parent directories that are created when
    they are missing. *)
Definition extract (member : TarInfo) (d : Path) : M unit := λ w,
  let dest := path_join d (name member) in
  (Ok tt, World (<[dest := payload member]> (files w))
                (list_to_set (parent_dirs dest) ∪ dirs w)
                (log w ++ [EvExtract member dest])).

Module download_sample_video.

Definition DATASET_ID : string :=
  "smart-dashcam/motorcycle-accident-driving-datasets".
Definition TAR_NAME : string := "train.tar".

(** [m.name.lower().endswith(".mp4")] *)
Definition is_mp4 (m : TarInfo) : bool :=
  Py.endswith (Py.lower (name m)) ".mp4".

(** The test of the preference loop, on [n = m.name.lower()]. *)
Definition accident_like (m : TarInfo) : bool :=
  let n := Py.lower (name m) in
  Py.str_in "accident" n || Py.str_in "crash" n || Py.str_in "collision" n.

Section Main.

(** [hf_hub_download(repo_id, filename, repo_type, token)], with the
    bytes of the cache file it returns the path of; [None] when the
    download raises. *)
Variable hf_hub_download :
  string → string → string → option string → option bytes.

(** [tarfile.open(...).getmembers()] on the bytes of an archive, in
    listing order; [None] when the file is not a readable archive. *)
Variable getmembers : bytes → option (list TarInfo).

(** [os.getenv("HF_TOKEN") or None]: an empty value counts as absent. *)
Definition hf_token (env_token : option string) : option string :=
  match env_token with
  | Some "" => None
  | t => t
  end.

(** [env_token] is the environment's [HF_TOKEN], if set. *)
Definition main (env_token : option string) : M unit :=
  let token := hf_token env_token in
  let out_dir := "videos" in
  mkdir out_dir ;;
  print ("Downloading " +:+ TAR_NAME +:+ " from " +:+ DATASET_ID +:+ " ...") ;;
  match hf_hub_download DATASET_ID TAR_NAME "dataset" token with
  | None => raise (ExternalError "hf_hub_download")
  | Some tar_bytes =>
      let local_tar := path_join out_dir TAR_NAME in
      present ← path_exists local_tar;
      (if negb present then write_bytes local_tar tar_bytes else mret tt) ;;
      print ("Saved: " +:+ local_tar) ;;
      archive ← read_bytes local_tar;
      match getmembers archive with
      | None => raise (ExternalError "tarfile.open")
      | Some tf =>
          let members := filter (λ m, is_mp4 m = true) tf in
          match members with
          | [] => raise (RuntimeError "No .mp4 files found in the tar.")
          | first :: _ =>
              let preferred := List.find accident_like members in
              let target := default first preferred in
              print ("Extracting sample video: " +:+ name target) ;;
              extract target out_dir ;;
              let extracted_path := path_join out_dir (name target) in
              let sample_path := path_join out_dir "sample.mp4" in
              data ← read_bytes extracted_path;
              write_bytes sample_path data ;;
              print ("Ready: " +:+ sample_path)
          end
      end
  end.

End Main.

End download_sample_video.

(** ** [run_molmo2_frames.py] *)

Module run_molmo2_frames.

Definition MODEL_ID : string := "allenai/Molmo2-8B".

Definition nl : string := String "010"%char "".
Definition dq : string := String "034"%char "".

Definition SAFETY_PROMPT : string :=
  "You are a safety-aware video summarizer." +:+ nl +:+
  "Do NOT output any personal details, license plates, exact locations, names, timestamps, or any numbers seen on screen." +:+ nl +:+
  "Do NOT guess demographics or identities." +:+ nl +:+
  "Describe only abstract events in sequence. If unsure, say " +:+ dq +:+ "uncertain" +:+ dq +:+ "." +:+ nl +:+
  nl +:+
  "Task: Summarize what happens in this traffic incident video in 5-8 bullet points." +:+ nl.

Record Args := {
  frames : string;
  max_frames : Z;
  max_new_tokens : Z
}.

Section Main.

(** [Image.open(fp).convert("RGB")] on the bytes of [fp]; [None] when
    the file does not decode. *)
Variable Image_open : bytes → option Image.

(** Whether [from_pretrained] finds and loads the processor, and the
    model, of an identifier. *)
Variable processor_from_pretrained : string → bool.
Variable model_from_pretrained : string → bool.

(** The chat template, [model.generate] and the tokenizer's decoding
    of the new tokens; [None] when inference raises. *)
Variable generate : list message → Z → option string.

(** [[Image.open(fp).convert("RGB") for fp in frames]] *)
Fixpoint load_images (frames : list string) : M (list Image) :=
  match frames with
  | [] => mret []
  | fp :: rest =>
      data ← read_bytes fp;
      match Image_open data with
      | None => raise (ExternalError "Image.open")
      | Some img => imgs ← load_images rest; mret (img :: imgs)
      end
  end.

Definition main (args : Args) : M unit :=
  let frame_dir := frames args in
  listing ← Py.sorted <$> glob frame_dir ".jpg";
  let frames := Py.slice_to (max_frames args) listing in
  match frames with
  | [] => raise (RuntimeError
            ("No frames found in: " +:+ frame_dir +:+ " (expected .jpg)"))
  | _ =>
      images ← load_images frames;
      (if processor_from_pretrained MODEL_ID then mret tt
       else raise (ExternalError "AutoProcessor.from_pretrained")) ;;
      (if model_from_pretrained MODEL_ID then mret tt
       else raise (ExternalError "AutoModelForImageTextToText.from_pretrained")) ;;
      let messages := [
        Message "user" (TextItem SAFETY_PROMPT :: (ImageItem <$> images))
      ] in
      emit (EvGenerate messages (max_new_tokens args)) ;;
      match generate messages (max_new_tokens args) with
      | None => raise (ExternalError "generate")
      | Some text => print text
      end
  end.

End Main.

End run_molmo2_frames.

(** ** Vocabulary of the statements *)

(** What holds of a path that [Path.exists] finds. *)
Definition present (p : Path) (w : world) : Prop :=
  is_Some (files w !! p) ∨ p ∈ dirs w.

(** Whether an event writes, replaces or removes the file at [p]. *)
Definition touches (p : Path) (e : event) : bool :=
  match e with
  | EvWrite q _ | EvUnlink q | EvExtract _ q => String.eqb p q
  | _ => false
  end.

Definition is_extract (e : event) : bool :=
  match e with
  | EvExtract _ _ => true
  | _ => false
  end.

Definition local_tar : Path := "videos/train.tar".
Definition sample_path : Path := "videos/sample.mp4".

Definition banner : event :=
  EvPrint ("Downloading " +:+ download_sample_video.TAR_NAME +:+ " from " +:+ download_sample_video.DATASET_ID +:+ " ...").

(** The world once the local archive copy is in place: the copy is
    written only when [videos/train.tar] did not exist. *)
Definition staged (tar_bytes : bytes) (w : world) : world :=
  if bool_decide (is_Some (files w !! local_tar)) || bool_decide (local_tar ∈ dirs w)
  then World (files w) ({["videos"]} ∪ dirs w)
             (log w ++ [EvMkdir "videos"; banner; EvPrint "Saved: videos/train.tar"])
  else World (<[local_tar := tar_bytes]> (files w)) ({["videos"]} ∪ dirs w)
             (log w ++ [EvMkdir "videos"; banner; EvWrite local_tar tar_bytes;
                        EvPrint "Saved: videos/train.tar"]).

(** The world once [target] was extracted and copied to the sample
    path. *)
Definition delivered (target : TarInfo) (w : world) : world :=
  let dest := path_join "videos" (name target) in
  World (<[sample_path := payload target]> (<[dest := payload target]> (files w)))
        (list_to_set (parent_dirs dest) ∪ dirs w)
        (log w ++ [EvPrint ("Extracting sample video: " +:+ name target);
                   EvExtract target dest;
                   EvWrite sample_path (payload target);
                   EvPrint "Ready: videos/sample.mp4"]).

(** The member [main] settles on among the [.mp4] members. *)
Definition chosen (first : TarInfo) (members : list TarInfo) : TarInfo :=
  default first (List.find download_sample_video.accident_like members).




(** The [.jpg] files of directory [d], by ascending name. *)
Definition listing (d : Path) (w : world) : list string :=
  Py.sorted (glob_files d ".jpg" (files w)).

(** [img] is what decoding the file at [fp] gives. *)
Definition decoded (Image_open : bytes → option Image) (w : world)
    (fp : Path) (img : Image) : Prop :=
  ∃ data, files w !! fp = Some data ∧ Image_open data = Some img.

(** The request the fixed prompt and a list of images make up. *)
Definition prompt_request (images : list Image) : list message :=
  [Message "user"
     (TextItem run_molmo2_frames.SAFETY_PROMPT :: (ImageItem <$> images))].

Definition is_generate (e : event) : bool :=
  match e with
  | EvGenerate _ _ => true
  | _ => false
  end.

Definition no_frames_error (d : Path) : exn :=
  RuntimeError ("No frames found in: " +:+ d +:+ " (expected .jpg)").

(** The command line [main] of the Framer builds. *)
Definition ffmpeg_command (args : extract_frames.Args) : list string :=
  [ "ffmpeg"; "-y"; "-i"; extract_frames.video args; "-vf";
    "fps=" +:+ extract_frames.fps args +:+ ",scale="
      +:+ pretty (extract_frames.scale args) +:+ ":-1";
    path_join (extract_frames.out args) "%04d.jpg" ].

(** The world the external tool is started in. *)
Definition launched (args : extract_frames.Args) (w : world) : world :=
  World (files w) ({[extract_frames.out args]} ∪ dirs w)
        (log w ++ [EvMkdir (extract_frames.out args);
                   EvPrint ("Running: " +:+ String.concat " " (ffmpeg_command args));
                   EvSpawn (ffmpeg_command args)]).

(** The files left once each path of [doomed] was unlinked, in order. *)
Definition remove_all (doomed : list string) (fs : gmap string bytes)
  : gmap string bytes :=
  foldl (λ fs p, delete p fs) fs doomed.

(** The world after the surplus deletion and the closing message, from
    the world [w1] the tool left. *)
Definition truncated (args : extract_frames.Args) (w1 : world) : world :=
  let out_dir := extract_frames.out args in
  let doomed := Py.slice_from (extract_frames.max_frames args) (listing out_dir w1) in
  let fs := remove_all doomed (files w1) in
  World fs (dirs w1)
        (log w1 ++ (EvUnlink <$> doomed) ++
         [EvPrint ("Extracted "
                   +:+ pretty (length (Py.sorted (glob_files out_dir ".jpg" fs)))
                   +:+ " frames into " +:+ out_dir)]).

Definition no_frames_extracted : exn :=
  RuntimeError "No frames extracted. Check ffmpeg install / input video.".




(** ** Sample inputs *)

Definition empty_world : world := World ∅ ∅ [].

Definition sample_hub : string → string → string → option string → option bytes :=
  λ _ _ _ _, Some [x74%byte; x61%byte; x72%byte].

Definition crash_clip : TarInfo := Member "clips/Crash_01.mp4" [x0b%byte].
Definition plain_clip : TarInfo := Member "clips/a.MP4" [x0a%byte].
Definition readme : TarInfo := Member "readme.txt" [].

(** An archive reader that lists a video archive whatever the bytes. *)
Definition video_archive : bytes → option (list TarInfo) :=
  λ _, Some [readme; plain_clip; crash_clip].

(** An archive reader that lists an archive without videos. *)
Definition text_archive : bytes → option (list TarInfo) :=
  λ _, Some [readme].

(** A world in which an earlier run left its archive copy. *)
Definition rerun_world : world :=
  World (<[local_tar := [x74%byte; x61%byte; x72%byte]]> ∅) {["videos"]} [].

Definition decode_any : bytes → option Image := λ data, Some (RGB data).
Definition always_loads : string → bool := λ _, true.
Definition canned_summary : list message → Z → option string :=
  λ _ _, Some "- a vehicle brakes".

(** A frame directory holding three extracted frames. *)
Definition three_frames : world :=
  World (<["frames/0003.jpg" := [x03%byte]]>
         (<["frames/0002.jpg" := [x02%byte]]>
          (<["frames/0001.jpg" := [x01%byte]]> ∅))) {["frames"]} [].



Definition keep_two : extract_frames.Args :=
  extract_frames.Build_Args "videos/sample.mp4" "frames" "2.0" 2 640.



(** A fresh run: the video is there, the output directory is not. *)
Definition fresh_world : world :=
  World (<["videos/sample.mp4" := [x76%byte]]> ∅) {["videos"]} [].

Definition three_produced : list bytes := [[x01%byte]; [x02%byte]; [x03%byte]].

(** ** Further sample inputs *)

(** A tool that cannot be started or exits with a non-zero status. *)
Definition failing_tool : list string → M unit :=
  λ cmd, raise (CalledProcessError cmd).

(** A world whose output path is taken by a regular file. *)
Definition blocked_world : world :=
  World (<["frames" := [x00%byte]]>
         (<["videos/sample.mp4" := [x76%byte]]> ∅)) {["videos"]} [].

(** The world the tool leaves when it wrote [three_produced] into the
    fresh output directory of [fresh_world]. *)
Definition three_written (args : extract_frames.Args) : world :=
  World (write_frames "frames" 1 three_produced (files fresh_world))
        (dirs (launched args fresh_world)) (log (launched args fresh_world)).



(** The world once [videos] exists and the download was announced. *)
Definition announced (w : world) : world :=
  World (files w) ({["videos"]} ∪ dirs w) (log w ++ [EvMkdir "videos"; banner]).

Definition no_hub : string → string → string → option string → option bytes :=
  λ _ _ _ _, None.

Definition other_hub : string → string → string → option string → option bytes :=
  λ _ _ _ _, Some [x00%byte].

(** An archive reader that rejects every file. *)
Definition broken_archive : bytes → option (list TarInfo) := λ _, None.

(** A world in which [videos] is a regular file. *)
Definition videos_file_world : world :=
  World (<["videos" := [x00%byte]]> ∅) ∅ [].

Definition never_loads : string → bool := λ _, false.

(** * Properties *)

(** ** Running the monad *)

Ltac unfold_M :=
  unfold mbind, M_bind, mret, M_ret, fmap, M_fmap, raise, print, emit,
    path_exists, mkdir, write_bytes, read_bytes, unlink, glob, extract in *.

Ltac step_M := cbv beta iota zeta; cbn [files dirs log negb fst snd].

Lemma path_exists_true p w :
  present p w →
  bool_decide (is_Some (files w !! p)) || bool_decide (p ∈ dirs w) = true.
Proof.
  intros [H|H].
  - by rewrite (bool_decide_eq_true_2 _ H).
  - rewrite (bool_decide_eq_true_2 _ H). apply orb_true_r.
Qed.

Lemma path_exists_false p w :
  files w !! p = None → p ∉ dirs w →
  bool_decide (is_Some (files w !! p)) || bool_decide (p ∈ dirs w) = false.
Proof.
  intros Hf Hd. rewrite Hf.
  rewrite bool_decide_eq_false_2 by (intros [? ?]; done).
  by rewrite bool_decide_eq_false_2.
Qed.

(** ** Framer: the pre-flight check *)

(** C5: when [--video] names a path that does not exist, [main] raises
    [FileNotFoundError] and hands back the very world it started in: no
    directory was made, no process spawned, no file written or deleted,
    nothing logged.  This holds whatever the external tool would do. *)
Theorem framer_missing_video_aborts_without_effect
    (tool : list string → M unit) (args : extract_frames.Args) (w : world) :
  files w !! extract_frames.video args = None →
  extract_frames.video args ∉ dirs w →
  extract_frames.main tool args w =
    (Raise (FileNotFoundError
              ("Video not found: " +:+ extract_frames.video args)), w).
Proof.
  intros Hf Hd. unfold extract_frames.main. unfold_M.
  by rewrite (path_exists_false _ _ Hf Hd).
Qed.

Lemma framer_missing_video_aborts_without_effect_witness :
  let tool := ffmpeg_image2 [[x01%byte]] in
  let args := extract_frames.Build_Args "videos/sample.mp4" "frames" "2.0" 12 640 in
  let w := World (<["videos/other.mp4" := [x00%byte]]> ∅) ∅ [] in
  extract_frames.main tool args w =
    (Raise (FileNotFoundError "Video not found: videos/sample.mp4"), w).
Proof.
  intros tool args w.
  apply (framer_missing_video_aborts_without_effect tool args w).
  - reflexivity.
  - apply not_elem_of_empty.
Defined.

(** ** Fetcher *)

Section Fetcher.

Import download_sample_video.

Variable hf_hub_download :
  string → string → string → option string → option bytes.
Variable getmembers : bytes → option (list TarInfo).

Abbreviation fetch := (main hf_hub_download getmembers).

(** [main] up to the point where the archive is scanned, and from there
    on, for a run whose download and archive reading succeed. *)
Lemma fetch_run env w tar_bytes archive tf :
  files w !! "videos" = None →
  hf_hub_download DATASET_ID TAR_NAME "dataset" (hf_token env) = Some tar_bytes →
  files (staged tar_bytes w) !! local_tar = Some archive →
  getmembers archive = Some tf →
  fetch env w =
    match filter (λ m, is_mp4 m = true) tf with
    | [] => (Raise (RuntimeError "No .mp4 files found in the tar."),
             staged tar_bytes w)
    | first :: rest =>
        (Ok tt, delivered (chosen first (first :: rest)) (staged tar_bytes w))
    end.
Proof.
  intros Hdir Hhub Harch Htf. unfold main. unfold_M.
  rewrite Hdir, Hhub. step_M.
  change (path_join "videos" TAR_NAME) with local_tar.
  unfold staged, delivered, chosen in *.
  assert (bool_decide (local_tar ∈ ({["videos"]} ∪ dirs w : gset string))
          = bool_decide (local_tar ∈ dirs w)) as ->.
  { apply bool_decide_ext. rewrite elem_of_union, elem_of_singleton.
    split; [intros [?|?]; [discriminate | done] | by right]. }
  destruct (bool_decide (is_Some (files w !! local_tar)) ||
            bool_decide (local_tar ∈ dirs w)) eqn:Hpresent;
    step_M; cbn [files] in Harch; rewrite Harch; step_M; rewrite Htf;
    (destruct (filter _ tf) as [|first rest] eqn:Hmem; step_M;
     [ by rewrite <- !app_assoc
     | rewrite lookup_insert_eq; step_M; by rewrite <- !app_assoc ]).
Qed.



Lemma chosen_elem first rest : chosen first (first :: rest) ∈ first :: rest.
Proof.
  unfold chosen. destruct (List.find _ _) as [m|] eqn:Hfind; cbn.
  - apply List.find_some in Hfind as [Hin _]. by apply list_elem_of_In.
  - left.
Qed.

(** Nothing [main] extracts can land on the local archive copy: the
    extracted name ends in [.mp4], the copy's name does not. *)
Lemma mp4_dest_not_local_tar (m : TarInfo) :
  is_mp4 m = true → path_join "videos" (name m) ≠ local_tar.
Proof.
  unfold is_mp4, path_join, local_tar. intros Hmp4 Heq.
  destruct (name m) as [|c n] eqn:Hname; [discriminate|].
  destruct (Ascii.eqb_spec c "/"%char) as [->|Hc].
  - discriminate.
  - assert (String c n = "train.tar") as Hn.
    { destruct c as [[] [] [] [] [] [] [] []]; try done;
        by apply (inj (String.app "videos/")) in Heq. }
    rewrite Hn in Hmp4. vm_compute in Hmp4. discriminate.
Qed.

Lemma first_mp4 tf first rest :
  filter (λ m, is_mp4 m = true) tf = first :: rest →
  ∀ m, m ∈ first :: rest → is_mp4 m = true.
Proof.
  intros Hmem m Hm. rewrite <- Hmem in Hm.
  by apply list_elem_of_filter in Hm as [? _].
Qed.

(** C3: on an archive none of whose members ends in [.mp4], [main]
    raises the "no .mp4 files" error; what it did before raising contains
    no extraction and no write to [videos/sample.mp4], and that path holds
    what it held before the run (nothing, if it did not exist). *)
Theorem fetcher_no_video_member_aborts_without_sample
    env w tar_bytes archive tf :
  files w !! "videos" = None →
  hf_hub_download DATASET_ID TAR_NAME "dataset" (hf_token env) = Some tar_bytes →
  files (staged tar_bytes w) !! local_tar = Some archive →
  getmembers archive = Some tf →
  filter (λ m, is_mp4 m = true) tf = [] →
  ∃ w' new,
    fetch env w = (Raise (RuntimeError "No .mp4 files found in the tar."), w') ∧
    log w' = log w ++ new ∧
    List.filter is_extract new = [] ∧
    List.filter (touches sample_path) new = [] ∧
    files w' !! sample_path = files w !! sample_path.
Proof.
  intros Hdir Hhub Harch Htf Hmem.
  rewrite (fetch_run env w tar_bytes archive tf Hdir Hhub Harch Htf), Hmem.
  unfold staged.
  destruct (bool_decide _ || bool_decide _); eexists _, _;
    (split; [reflexivity|]); cbn [log files];
    (split; [reflexivity|]); (split; [reflexivity|]);
    (split; [reflexivity|]); [done|].
  by apply lookup_insert_ne.
Qed.

(** C10: when [videos/train.tar] does not exist yet and the downloaded
    archive has no [.mp4] member, the run raises the "no .mp4 files"
    error after it has written the local copy: the copy, absent before,
    is on disk in the world the failed run leaves behind. *)
Theorem fetcher_no_match_leaves_archive_copy env w tar_bytes tf :
  files w !! "videos" = None →
  files w !! local_tar = None →
  local_tar ∉ dirs w →
  hf_hub_download DATASET_ID TAR_NAME "dataset" (hf_token env) = Some tar_bytes →
  getmembers tar_bytes = Some tf →
  filter (λ m, is_mp4 m = true) tf = [] →
  ∃ w' new,
    fetch env w = (Raise (RuntimeError "No .mp4 files found in the tar."), w') ∧
    files w' !! local_tar = Some tar_bytes ∧
    log w' = log w ++ new ∧
    List.filter (touches local_tar) new = [EvWrite local_tar tar_bytes].
Proof.
  intros Hdir Hfile Hnodir Hhub Htf Hmem.
  assert (Hstaged : staged tar_bytes w =
    World (<[local_tar := tar_bytes]> (files w)) ({["videos"]} ∪ dirs w)
          (log w ++ [EvMkdir "videos"; banner; EvWrite local_tar tar_bytes;
                     EvPrint "Saved: videos/train.tar"])).
  { unfold staged. by rewrite (path_exists_false _ _ Hfile Hnodir). }
  assert (Harch : files (staged tar_bytes w) !! local_tar = Some tar_bytes).
  { rewrite Hstaged. apply lookup_insert_eq. }
  rewrite (fetch_run env w tar_bytes tar_bytes tf Hdir Hhub Harch Htf), Hmem.
  rewrite Hstaged. eexists _, _. split; [reflexivity|]. cbn [files log].
  split; [apply lookup_insert_eq|]. split; reflexivity.
Qed.

(** C6: a run that starts with [videos/train.tar] present leaves that
    file holding the same bytes, however the run ends, and nothing the
    run does writes, replaces or removes it; so the second of two
    consecutive runs does not touch the copy the first one made. *)
Theorem fetcher_rerun_keeps_archive_copy env w data :
  files w !! local_tar = Some data →
  ∃ new,
    files (fetch env w).2 !! local_tar = Some data ∧
    log (fetch env w).2 = log w ++ new ∧
    List.filter (touches local_tar) new = [].
Proof.
  intros Hlocal. unfold main. unfold_M.
  destruct (files w !! "videos") eqn:Hdir; step_M.
  { exists []. by rewrite app_nil_r. }
  destruct (hf_hub_download _ _ _ _) as [tar_bytes|]; step_M.
  2: { eexists. split; [done|]. split; [by rewrite <- app_assoc|done]. }
  change (path_join "videos" TAR_NAME) with local_tar.
  rewrite Hlocal, (bool_decide_eq_true_2 (is_Some (Some data))) by eauto.
  cbn [orb]. step_M. rewrite Hlocal. step_M.
  destruct (getmembers data) as [tf|]; step_M.
  2: { eexists. split; [done|]. split; [by rewrite <- !app_assoc|done]. }
  destruct (filter _ tf) as [|first rest] eqn:Hmem; step_M.
  { eexists. split; [done|]. split; [by rewrite <- !app_assoc|done]. }
  rewrite lookup_insert_eq. step_M.
  fold (chosen first (first :: rest)).
  pose proof (first_mp4 tf first rest Hmem _ (chosen_elem first rest)) as Hmp4.
  apply mp4_dest_not_local_tar in Hmp4.
  eexists. split; [|split; [by rewrite <- !app_assoc|]].
  - rewrite lookup_insert_ne by discriminate.
    by rewrite lookup_insert_ne.
  - cbn [List.filter touches app].
    apply not_eq_sym, String.eqb_neq in Hmp4. by rewrite Hmp4.
Qed.

End Fetcher.

Lemma fetcher_no_video_member_aborts_without_sample_witness :
  ∃ w' new,
    download_sample_video.main sample_hub text_archive None empty_world
      = (Raise (RuntimeError "No .mp4 files found in the tar."), w') ∧
    log w' = log empty_world ++ new ∧
    List.filter is_extract new = [] ∧
    List.filter (touches sample_path) new = [] ∧
    files w' !! sample_path = files empty_world !! sample_path.
Proof.
  apply (fetcher_no_video_member_aborts_without_sample
           sample_hub text_archive None empty_world
           [x74%byte; x61%byte; x72%byte] [x74%byte; x61%byte; x72%byte]
           [readme]);
    reflexivity.
Defined.

Lemma fetcher_no_match_leaves_archive_copy_witness :
  ∃ w' new,
    download_sample_video.main sample_hub text_archive None empty_world
      = (Raise (RuntimeError "No .mp4 files found in the tar."), w') ∧
    files w' !! local_tar = Some [x74%byte; x61%byte; x72%byte] ∧
    log w' = log empty_world ++ new ∧
    List.filter (touches local_tar) new
      = [EvWrite local_tar [x74%byte; x61%byte; x72%byte]].
Proof.
  apply (fetcher_no_match_leaves_archive_copy
           sample_hub text_archive None empty_world
           [x74%byte; x61%byte; x72%byte] [readme]);
    try reflexivity.
  apply not_elem_of_empty.
Defined.

Lemma fetcher_rerun_keeps_archive_copy_witness :
  ∃ new,
    files (download_sample_video.main sample_hub video_archive None rerun_world).2
      !! local_tar = Some [x74%byte; x61%byte; x72%byte] ∧
    log (download_sample_video.main sample_hub video_archive None rerun_world).2
      = log rerun_world ++ new ∧
    List.filter (touches local_tar) new = [].
Proof.
  apply (fetcher_rerun_keeps_archive_copy
           sample_hub video_archive None rerun_world
           [x74%byte; x61%byte; x72%byte]).
  reflexivity.
Defined.

(** ** Slices and listings *)


Lemma slice_to_nonpos_nil {A} (n : Z) (l : list A) :
  (n ≤ 0)%Z →
  Py.slice_to n l = [] ↔ (n = 0 ∨ Z.of_nat (length l) ≤ - n)%Z.
Proof.
  intros Hn. unfold Py.slice_to, Py.slice_index.
  destruct (Z.ltb_spec n 0) as [Hneg|Hzero].
  - destruct l as [|x l]; cbn [length]; [rewrite take_nil; split; [lia|done]|].
    destruct (Z.to_nat _) as [|k] eqn:Hk; cbn [take]; split;
      (done || lia).
  - assert (n = 0%Z) as -> by lia.
    rewrite Z.min_l by lia. cbn. rewrite take_0. by split; [left|].
Qed.

Lemma slice_to_from {A} (n : Z) (l : list A) :
  Py.slice_to n l ++ Py.slice_from n l = l.
Proof. apply take_drop. Qed.

Lemma listing_Permutation d w : listing d w ≡ₚ glob_files d ".jpg" (files w).
Proof. apply merge_sort_Permutation. Qed.


Lemma listing_length d w :
  length (listing d w) = length (glob_files d ".jpg" (files w)).
Proof. apply Permutation_length, listing_Permutation. Qed.



Lemma elem_of_glob_files d suffix fs p :
  p ∈ glob_files d suffix fs ↔ is_Some (fs !! p) ∧ matches d suffix p = true.
Proof.
  unfold glob_files. rewrite list_elem_of_filter, list_elem_of_fmap.
  split.
  - intros [Hm ([q data] & -> & Hin)]. apply elem_of_map_to_list in Hin.
    by split; [exists data|].
  - intros [[data Hdata] Hm]. split; [done|]. exists (p, data).
    split; [done|]. by apply elem_of_map_to_list.
Qed.

Lemma NoDup_glob_files d suffix fs : NoDup (glob_files d suffix fs).
Proof. apply NoDup_filter, NoDup_fst_map_to_list. Qed.

Lemma NoDup_listing d w : NoDup (listing d w).
Proof. rewrite listing_Permutation. apply NoDup_glob_files. Qed.

Lemma elem_of_listing d w p :
  p ∈ listing d w ↔ is_Some (files w !! p) ∧ matches d ".jpg" p = true.
Proof. rewrite listing_Permutation. apply elem_of_glob_files. Qed.

(** ** Unlinking *)

Lemma lookup_remove_all doomed fs p :
  remove_all doomed fs !! p = if decide (p ∈ doomed) then None else fs !! p.
Proof.
  revert fs. induction doomed as [|q doomed IH]; intros fs.
  - cbn. by rewrite decide_False by apply not_elem_of_nil.
  - change (remove_all (q :: doomed) fs) with (remove_all doomed (delete q fs)).
    rewrite IH. destruct (decide (p ∈ doomed)) as [Hin|Hnin].
    + by rewrite decide_True by by right.
    + destruct (decide (p = q)) as [->|Hne].
      * rewrite lookup_delete_eq. by rewrite decide_True by left.
      * rewrite lookup_delete_ne by done.
        rewrite decide_False; [done|]. by intros [?|?]%elem_of_cons.
Qed.

Lemma for_each_unlink doomed w :
  NoDup doomed →
  (∀ p, p ∈ doomed → is_Some (files w !! p)) →
  for_each doomed unlink w =
    (Ok tt, World (remove_all doomed (files w)) (dirs w)
                  (log w ++ (EvUnlink <$> doomed))).
Proof.
  revert w. induction doomed as [|q doomed IH]; intros w Hnodup Hfiles.
  - cbn. unfold_M. rewrite app_nil_r. by destruct w.
  - apply NoDup_cons in Hnodup as [Hq Hnodup].
    destruct (Hfiles q) as [data Hdata]; [left|].
    change (remove_all (q :: doomed) (files w))
      with (remove_all doomed (delete q (files w))).
    cbn [for_each fmap list_fmap]. unfold_M. rewrite Hdata. step_M.
    rewrite IH; [|done|]; cbn [files dirs log].
    + by rewrite <- app_assoc.
    + intros p Hp. rewrite lookup_delete_ne; [apply Hfiles; by right|].
      by intros ->.
Qed.

(** ** Strings and frame names *)

Lemma append_cons c s t : String c s +:+ t = String c (s +:+ t).
Proof. reflexivity. Qed.

Lemma append_assoc (a b c : string) : (a +:+ b) +:+ c = a +:+ (b +:+ c).
Proof. induction a as [|x a IH]; [done|]. by rewrite !append_cons, IH. Qed.












Lemma endswith_app s suffix : Py.endswith (s +:+ suffix) suffix = true.
Proof.
  induction s as [|c s IH].
  - change ("" +:+ suffix) with suffix.
    destruct suffix; cbn; by rewrite ?Ascii.eqb_refl, ?String.eqb_refl.
  - rewrite append_cons. cbn [Py.endswith]. rewrite IH. by case_match.
Qed.












(** ** What the tool writes *)




(** ** Framer: after the tool *)

Section Framer.

Import extract_frames.

Variable tool : list string → M unit.

Abbreviation frame := (main tool).

(** [main] past the pre-flight check: the tool runs in [launched], and
    what it leaves decides between the zero-frames error and the
    truncation. *)
Lemma frame_run args w :
  present (video args) w →
  files w !! out args = None →
  frame args w =
    match tool (ffmpeg_command args) (launched args w) with
    | (Raise e, w1) => (Raise e, w1)
    | (Ok _, w1) =>
        match listing (out args) w1 with
        | [] => (Raise no_frames_extracted, w1)
        | _ => (Ok tt, truncated args w1)
        end
    end.
Proof.
  intros Hvideo Hout. unfold main. unfold_M.
  rewrite (path_exists_true _ _ Hvideo). step_M. rewrite Hout. step_M.
  fold (ffmpeg_command args). unfold subprocess_run. unfold_M. step_M.
  rewrite <- !app_assoc. cbn [app]. fold (launched args w).
  destruct (tool _ _) as [[[]|e] w1]; [|done]. step_M.
  fold (listing (out args) w1).
  destruct (listing (out args) w1) as [|fp fr] eqn:Hlist; [done|].
  rewrite for_each_unlink.
  - step_M. unfold truncated. rewrite Hlist. cbv zeta.
    by rewrite <- app_assoc.
  - rewrite <- Hlist.
    pose proof (NoDup_listing (out args) w1) as Hnodup.
    rewrite <- (slice_to_from (max_frames args) (listing (out args) w1)) in Hnodup.
    by apply NoDup_app in Hnodup as (_ & _ & ?).
  - intros p Hp. rewrite <- Hlist in Hp.
    assert (p ∈ listing (out args) w1) as Hin.
    { rewrite <- (slice_to_from (max_frames args) (listing (out args) w1)).
      apply elem_of_app. by right. }
    by apply elem_of_listing in Hin as [? _].
Qed.


End Framer.



(** ** Framer: a fresh output directory *)







(** ** Summarizer *)

Section Summarizer.

Import run_molmo2_frames.

Variable Image_open : bytes → option Image.
Variable processor_from_pretrained : string → bool.
Variable model_from_pretrained : string → bool.
Variable generate : list message → Z → option string.

Abbreviation summarize :=
  (main Image_open processor_from_pretrained model_from_pretrained generate).
Abbreviation load := (load_images Image_open).

(** Loading reads and decodes, and changes nothing. *)
Lemma load_images_world fr w r w1 : load fr w = (r, w1) → w1 = w.
Proof.
  revert r. induction fr as [|fp fr IH]; intros r; cbn; unfold_M.
  - by intros [= _ <-].
  - destruct (files w !! fp) as [data|]; step_M; [|by intros [= _ <-]].
    destruct (Image_open data) as [img|]; step_M; [|by intros [= _ <-]].
    destruct (load fr w) as [[imgs|e] w2] eqn:Hrest; step_M;
      intros [= _ <-]; by eapply IH.
Qed.

(** A successful load decodes each file, in the order of the list. *)
Lemma load_images_ok fr w images w1 :
  load fr w = (Ok images, w1) → Forall2 (decoded Image_open w) fr images.
Proof.
  revert images. induction fr as [|fp fr IH]; intros images; cbn; unfold_M.
  - intros [= <- _]. constructor.
  - destruct (files w !! fp) as [data|] eqn:Hfp; step_M; [|done].
    destruct (Image_open data) as [img|] eqn:Himg; step_M; [|done].
    destruct (load fr w) as [[imgs|e] w2] eqn:Hrest; step_M; [|done].
    intros [= <- <-]. constructor; [by exists data|]. by apply IH.
Qed.


(** Loading raises only what reading and decoding raise. *)
Lemma load_images_no_runtime_error fr w msg w1 :
  load fr w ≠ (Raise (RuntimeError msg), w1).
Proof.
  induction fr as [|fp fr IH]; cbn; unfold_M; [done|].
  destruct (files w !! fp) as [data|]; step_M; [|done].
  destruct (Image_open data) as [img|]; step_M; [|done].
  destruct (load fr w) as [[imgs|e] w2] eqn:Hrest; step_M; [done|].
  intros [= -> ->]. done.
Qed.

(** [main], by the frames its slice selects. *)
Lemma summarize_run args w :
  summarize args w =
    match Py.slice_to (max_frames args) (listing (frames args) w) with
    | [] => (Raise (no_frames_error (frames args)), w)
    | fp :: fr =>
        match load (fp :: fr) w with
        | (Raise e, w1) => (Raise e, w1)
        | (Ok images, w1) =>
            if processor_from_pretrained MODEL_ID then
              if model_from_pretrained MODEL_ID then
                let w2 := World (files w1) (dirs w1)
                  (log w1 ++ [EvGenerate (prompt_request images)
                                         (max_new_tokens args)]) in
                match generate (prompt_request images) (max_new_tokens args) with
                | None => (Raise (ExternalError "generate"), w2)
                | Some text =>
                    (Ok tt, World (files w2) (dirs w2) (log w2 ++ [EvPrint text]))
                end
              else (Raise (ExternalError
                             "AutoModelForImageTextToText.from_pretrained"), w1)
            else (Raise (ExternalError "AutoProcessor.from_pretrained"), w1)
        end
    end.
Proof.
  unfold main, listing. unfold_M. step_M.
  destruct (Py.slice_to _ _) as [|fp fr]; [done|].
  destruct (load_images _ _ _) as [[images|e] w1]; [|done].
  destruct (processor_from_pretrained _); step_M; [|done].
  destruct (model_from_pretrained _); step_M; [|done].
  unfold prompt_request.
  by destruct (generate _ _).
Qed.

(** C7: in a run that loads [k >= 1] images and whose processor and
    model load, exactly one request goes to the model; it is a single
    message of role "user" whose content is the fixed [SAFETY_PROMPT]
    text item followed by the [k] loaded images as image items, in the
    order of the (name-sorted, capped) frame list they were decoded
    from, and nothing else. *)
Theorem summarizer_request_is_prompt_then_loaded_images args w images w1 :
  load (Py.slice_to (max_frames args) (listing (frames args) w)) w
    = (Ok images, w1) →
  1 ≤ length images →
  processor_from_pretrained MODEL_ID = true →
  model_from_pretrained MODEL_ID = true →
  Forall2 (decoded Image_open w)
          (Py.slice_to (max_frames args) (listing (frames args) w)) images ∧
  ∃ r after,
    summarize args w =
      (r, World (files w) (dirs w)
            (log w ++
             EvGenerate
               [Message "user" (TextItem SAFETY_PROMPT :: (ImageItem <$> images))]
               (max_new_tokens args) :: after)) ∧
    List.filter is_generate after = [].
Proof.
  intros Hload Hk Hproc Hmodel.
  split; [by eapply load_images_ok|].
  rewrite summarize_run.
  destruct (Py.slice_to _ _) as [|fp fr] eqn:Hsel.
  { cbn in Hload. unfold_M. injection Hload as <- _. cbn in Hk. lia. }
  rewrite Hload, Hproc, Hmodel.
  pose proof (load_images_world _ _ _ _ Hload) as ->.
  unfold prompt_request. cbv zeta. cbn [files dirs log].
  destruct (generate _ _) as [text|].
  - exists (Ok tt), [EvPrint text]. by rewrite <- app_assoc.
  - by exists (Raise (ExternalError "generate")), [].
Qed.


(** C9, as the code has it: for a maximum frame count [N <= 0] the run
    raises the "no frames found" error exactly when [N = 0] or the
    directory holds at most [-N] [.jpg] files; with [N = 0] it does so
    even when the directory contains images, the cap being applied to
    the sorted list before the emptiness test. *)
Theorem summarizer_nonpositive_cap_aborts_iff args w :
  (max_frames args ≤ 0)%Z →
  (∃ w', summarize args w = (Raise (no_frames_error (frames args)), w')) ↔
  (max_frames args = 0 ∨
   Z.of_nat (length (glob_files (frames args) ".jpg" (files w)))
     ≤ - max_frames args)%Z.
Proof.
  intros Hn. rewrite <- listing_length, <- (slice_to_nonpos_nil _ _ Hn).
  rewrite summarize_run.
  destruct (Py.slice_to _ _) as [|fp fr]; split; try done.
  - by exists w.
  - intros [w' Hrun].
    destruct (load _ w) as [[images|e] w1] eqn:Hload.
    + destruct (processor_from_pretrained _); [|done].
      destruct (model_from_pretrained _); [|done].
      cbv zeta in Hrun. by destruct (generate _ _).
    + injection Hrun as -> ->.
      by apply load_images_no_runtime_error in Hload.
Qed.

End Summarizer.

Lemma summarizer_request_is_prompt_then_loaded_images_witness :
  let args := run_molmo2_frames.Build_Args "frames" 2 256 in
  let images := [RGB [x01%byte]; RGB [x02%byte]] in
  Forall2 (decoded decode_any three_frames)
          (Py.slice_to 2 (listing "frames" three_frames)) images ∧
  ∃ r after,
    run_molmo2_frames.main decode_any always_loads always_loads canned_summary
        args three_frames =
      (r, World (files three_frames) (dirs three_frames)
            (log three_frames ++
             EvGenerate
               [Message "user"
                  (TextItem run_molmo2_frames.SAFETY_PROMPT
                     :: (ImageItem <$> images))]
               256 :: after)) ∧
    List.filter is_generate after = [].
Proof.
  intros args images.
  apply (summarizer_request_is_prompt_then_loaded_images
           decode_any always_loads always_loads canned_summary
           args three_frames images three_frames).
  - vm_compute. reflexivity.
  - cbn. lia.
  - reflexivity.
  - reflexivity.
Defined.



Lemma summarizer_nonpositive_cap_aborts_iff_witness :
  let args := run_molmo2_frames.Build_Args "frames" 0 256 in
  (∃ w', run_molmo2_frames.main decode_any always_loads always_loads
           canned_summary args three_frames
         = (Raise (no_frames_error "frames"), w')) ↔
  (0 = 0 ∨
   Z.of_nat (length (glob_files "frames" ".jpg" (files three_frames))) ≤ - 0)%Z.
Proof.
  intros args.
  apply (summarizer_nonpositive_cap_aborts_iff
           decode_any always_loads always_loads canned_summary
           args three_frames).
  cbn. lia.
Defined.

(** C9 fails for a negative maximum: with [--max_frames -2] and three
    frames in the directory the slice keeps one frame, the emptiness
    test passes and the run completes. *)
Lemma summarizer_negative_cap_does_not_abort :
  let args := run_molmo2_frames.Build_Args "frames" (-2) 256 in
  (run_molmo2_frames.max_frames args ≤ 0)%Z ∧
  length (glob_files "frames" ".jpg" (files three_frames)) = 3 ∧
  run_molmo2_frames.main decode_any always_loads always_loads canned_summary
      args three_frames
    = (Ok tt,
       World (files three_frames) (dirs three_frames)
         [EvGenerate (prompt_request [RGB [x01%byte]]) 256;
          EvPrint "- a vehicle brakes"]).
Proof.
  intros args. split; [cbn; lia|]. split; vm_compute; reflexivity.
Qed.

(** * Further properties of the scripts *)

(** ** Framer: failures and the extent of the deletion *)

(** X1: an error of the external tool is the error of the run, and the
    run ends in the world the tool left: nothing is listed, deleted or
    printed after the failure. *)
Theorem framer_tool_failure_is_final
    (tool : list string → M unit) (args : extract_frames.Args)
    (w w1 : world) (e : exn) :
  present (extract_frames.video args) w →
  files w !! extract_frames.out args = None →
  tool (ffmpeg_command args) (launched args w) = (Raise e, w1) →
  extract_frames.main tool args w = (Raise e, w1).
Proof.
  intros Hvideo Hout Htool.
  by rewrite (frame_run tool args w Hvideo Hout), Htool.
Qed.

Lemma framer_tool_failure_is_final_witness :
  extract_frames.main failing_tool keep_two fresh_world
    = (Raise (CalledProcessError (ffmpeg_command keep_two)),
       launched keep_two fresh_world).
Proof.
  apply (framer_tool_failure_is_final failing_tool keep_two fresh_world).
  - left. by exists [x76%byte].
  - reflexivity.
  - reflexivity.
Defined.

(** X2: when the output path is an existing regular file, [mkdir] fails
    and the run stops there: the world is unchanged, so no process was
    spawned, whatever the tool is. *)
Theorem framer_output_path_taken_by_file
    (tool : list string → M unit) (args : extract_frames.Args)
    (w : world) (data : bytes) :
  present (extract_frames.video args) w →
  files w !! extract_frames.out args = Some data →
  extract_frames.main tool args w
    = (Raise (FileExistsError (extract_frames.out args)), w).
Proof.
  intros Hvideo Hout. unfold extract_frames.main. unfold_M.
  rewrite (path_exists_true _ _ Hvideo). step_M. by rewrite Hout.
Qed.

Lemma framer_output_path_taken_by_file_witness :
  extract_frames.main failing_tool keep_two blocked_world
    = (Raise (FileExistsError "frames"), blocked_world).
Proof.
  apply (framer_output_path_taken_by_file failing_tool keep_two blocked_world
           [x00%byte]).
  - left. by exists [x76%byte].
  - reflexivity.
Defined.

(** The outcome of a run whose tool exited with status zero. *)
Lemma frame_run_ok tool args w w1 :
  present (extract_frames.video args) w →
  files w !! extract_frames.out args = None →
  tool (ffmpeg_command args) (launched args w) = (Ok tt, w1) →
  extract_frames.main tool args w =
    match listing (extract_frames.out args) w1 with
    | [] => (Raise no_frames_extracted, w1)
    | _ => (Ok tt, truncated args w1)
    end.
Proof.
  intros Hvideo Hout Htool.
  by rewrite (frame_run tool args w Hvideo Hout), Htool.
Qed.

(** X3: after the tool, the run touches nothing but [.jpg] entries of
    the output directory: every other file -- the video among them, and
    images in sub-directories or with another suffix -- holds what the
    tool left, and the set of directories is the same, however the run
    ends. *)
Theorem framer_deletes_only_jpgs_of_output_directory
    (tool : list string → M unit) (args : extract_frames.Args)
    (w w1 : world) :
  present (extract_frames.video args) w →
  files w !! extract_frames.out args = None →
  tool (ffmpeg_command args) (launched args w) = (Ok tt, w1) →
  dirs (extract_frames.main tool args w).2 = dirs w1 ∧
  ∀ p, matches (extract_frames.out args) ".jpg" p = false →
       files (extract_frames.main tool args w).2 !! p = files w1 !! p.
Proof.
  intros Hvideo Hout Htool. rewrite (frame_run_ok tool args w w1) by done.
  destruct (listing (extract_frames.out args) w1) as [|fp fr] eqn:Hlist;
    [done|].
  split; [done|]. intros p Hp. cbn [snd]. unfold truncated. cbn [files].
  rewrite lookup_remove_all, decide_False; [done|].
  intros Hin.
  assert (p ∈ listing (extract_frames.out args) w1) as Hl.
  { rewrite <- (slice_to_from (extract_frames.max_frames args)
                  (listing (extract_frames.out args) w1)).
    apply elem_of_app. by right. }
  apply elem_of_listing in Hl as [_ Hm]. congruence.
Qed.

Lemma framer_deletes_only_jpgs_of_output_directory_witness :
  dirs (extract_frames.main (ffmpeg_image2 three_produced) keep_two fresh_world).2
    = dirs (three_written keep_two) ∧
  ∀ p, matches "frames" ".jpg" p = false →
       files (extract_frames.main (ffmpeg_image2 three_produced) keep_two
                fresh_world).2 !! p
         = files (three_written keep_two) !! p.
Proof.
  apply (framer_deletes_only_jpgs_of_output_directory
           (ffmpeg_image2 three_produced) keep_two fresh_world
           (three_written keep_two)).
  - left. by exists [x76%byte].
  - reflexivity.
  - vm_compute. reflexivity.
Defined.







(** ** Framer: running it again *)






(** ** Fetcher: failures, the cached copy, and running it again *)

(** X8: when the download raises, the run raises its error after having
    made the directory and printed the announcement, and before any file
    is written: the files are those of the start. *)
Theorem fetcher_download_failure_writes_nothing
    (hf_hub_download : string → string → string → option string → option bytes)
    (getmembers : bytes → option (list TarInfo))
    (env : option string) (w : world) :
  files w !! "videos" = None →
  hf_hub_download download_sample_video.DATASET_ID
    download_sample_video.TAR_NAME "dataset"
    (download_sample_video.hf_token env) = None →
  download_sample_video.main hf_hub_download getmembers env w
    = (Raise (ExternalError "hf_hub_download"), announced w).
Proof.
  intros Hdir Hhub. unfold download_sample_video.main. unfold_M.
  rewrite Hdir, Hhub. step_M. unfold announced, banner.
  by rewrite <- app_assoc.
Qed.

Lemma fetcher_download_failure_writes_nothing_witness :
  download_sample_video.main no_hub video_archive None empty_world
    = (Raise (ExternalError "hf_hub_download"), announced empty_world).
Proof.
  apply (fetcher_download_failure_writes_nothing
           no_hub video_archive None empty_world); reflexivity.
Defined.

(** X9: when [videos] is an existing regular file, [mkdir] fails and the
    run stops in the unchanged world, whatever the download and the
    archive would give. *)
Theorem fetcher_videos_taken_by_file
    (hf_hub_download : string → string → string → option string → option bytes)
    (getmembers : bytes → option (list TarInfo))
    (env : option string) (w : world) (data : bytes) :
  files w !! "videos" = Some data →
  download_sample_video.main hf_hub_download getmembers env w
    = (Raise (FileExistsError "videos"), w).
Proof.
  intros Hdir. unfold download_sample_video.main. unfold_M. by rewrite Hdir.
Qed.

Lemma fetcher_videos_taken_by_file_witness :
  download_sample_video.main sample_hub video_archive None videos_file_world
    = (Raise (FileExistsError "videos"), videos_file_world).
Proof.
  apply (fetcher_videos_taken_by_file
           sample_hub video_archive None videos_file_world [x00%byte]).
  reflexivity.
Defined.

(** [main] up to the opening of the archive. *)
Lemma fetch_open hf_hub_download getmembers env w tar_bytes archive :
  files w !! "videos" = None →
  hf_hub_download download_sample_video.DATASET_ID
    download_sample_video.TAR_NAME "dataset"
    (download_sample_video.hf_token env) = Some tar_bytes →
  files (staged tar_bytes w) !! local_tar = Some archive →
  getmembers archive = None →
  download_sample_video.main hf_hub_download getmembers env w
    = (Raise (ExternalError "tarfile.open"), staged tar_bytes w).
Proof.
  intros Hdir Hhub Harch Htf. unfold download_sample_video.main. unfold_M.
  rewrite Hdir, Hhub. step_M.
  change (path_join "videos" download_sample_video.TAR_NAME) with local_tar.
  unfold staged in *.
  assert (bool_decide (local_tar ∈ ({["videos"]} ∪ dirs w : gset string))
          = bool_decide (local_tar ∈ dirs w)) as ->.
  { apply bool_decide_ext. rewrite elem_of_union, elem_of_singleton.
    split; [intros [?|?]; [discriminate | done] | by right]. }
  destruct (bool_decide (is_Some (files w !! local_tar)) ||
            bool_decide (local_tar ∈ dirs w)) eqn:Hpresent;
    step_M; cbn [files] in Harch; rewrite Harch; step_M; rewrite Htf;
    by rewrite <- !app_assoc.
Qed.

(** X10: when the local copy is not a readable archive, the run raises
    the archive error with the copy in place (written by this very run
    if it was missing); no member is extracted and the sample file is
    not written. *)
Theorem fetcher_unreadable_archive_aborts_after_copy
    (hf_hub_download : string → string → string → option string → option bytes)
    (getmembers : bytes → option (list TarInfo))
    (env : option string) (w : world) (tar_bytes archive : bytes) :
  files w !! "videos" = None →
  hf_hub_download download_sample_video.DATASET_ID
    download_sample_video.TAR_NAME "dataset"
    (download_sample_video.hf_token env) = Some tar_bytes →
  files (staged tar_bytes w) !! local_tar = Some archive →
  getmembers archive = None →
  ∃ w' new,
    download_sample_video.main hf_hub_download getmembers env w
      = (Raise (ExternalError "tarfile.open"), w') ∧
    files w' !! local_tar = Some archive ∧
    log w' = log w ++ new ∧
    List.filter is_extract new = [] ∧
    List.filter (touches sample_path) new = [] ∧
    files w' !! sample_path = files w !! sample_path.
Proof.
  intros Hdir Hhub Harch Htf.
  rewrite (fetch_open _ _ env w tar_bytes archive Hdir Hhub Harch Htf).
  unfold staged in *.
  destruct (bool_decide _ || bool_decide _); eexists _, _;
    (split; [reflexivity|]); (split; [exact Harch|]); cbn [log files];
    (split; [reflexivity|]); (split; [reflexivity|]);
    (split; [reflexivity|]); [done|].
  by apply lookup_insert_ne.
Qed.

Lemma fetcher_unreadable_archive_aborts_after_copy_witness :
  ∃ w' new,
    download_sample_video.main sample_hub broken_archive None empty_world
      = (Raise (ExternalError "tarfile.open"), w') ∧
    files w' !! local_tar = Some [x74%byte; x61%byte; x72%byte] ∧
    log w' = log empty_world ++ new ∧
    List.filter is_extract new = [] ∧
    List.filter (touches sample_path) new = [] ∧
    files w' !! sample_path = files empty_world !! sample_path.
Proof.
  apply (fetcher_unreadable_archive_aborts_after_copy
           sample_hub broken_archive None empty_world
           [x74%byte; x61%byte; x72%byte] [x74%byte; x61%byte; x72%byte]);
    reflexivity.
Defined.

(** X11: once [videos/train.tar] exists, what the download returns no
    longer matters: two runs from the same world whose downloads succeed
    with different bytes end the same way, because the archive that is
    opened is the local copy. *)
Theorem fetcher_local_copy_shadows_download
    (hub1 hub2 : string → string → string → option string → option bytes)
    (getmembers : bytes → option (list TarInfo))
    (env : option string) (w : world) (cached bytes1 bytes2 : bytes) :
  files w !! local_tar = Some cached →
  hub1 download_sample_video.DATASET_ID download_sample_video.TAR_NAME
    "dataset" (download_sample_video.hf_token env) = Some bytes1 →
  hub2 download_sample_video.DATASET_ID download_sample_video.TAR_NAME
    "dataset" (download_sample_video.hf_token env) = Some bytes2 →
  download_sample_video.main hub1 getmembers env w
    = download_sample_video.main hub2 getmembers env w.
Proof.
  intros Hlocal Hhub1 Hhub2. unfold download_sample_video.main. unfold_M.
  destruct (files w !! "videos"); [done|]. step_M.
  rewrite Hhub1, Hhub2. step_M.
  change (path_join "videos" download_sample_video.TAR_NAME) with local_tar.
  rewrite Hlocal, (bool_decide_eq_true_2 (is_Some (Some cached))) by eauto.
  reflexivity.
Qed.

Lemma fetcher_local_copy_shadows_download_witness :
  download_sample_video.main sample_hub video_archive None rerun_world
    = download_sample_video.main other_hub video_archive None rerun_world.
Proof.
  apply (fetcher_local_copy_shadows_download
           sample_hub other_hub video_archive None rerun_world
           [x74%byte; x61%byte; x72%byte] [x74%byte; x61%byte; x72%byte]
           [x00%byte]);
    reflexivity.
Defined.









(** ** Fetcher: letter case *)

Lemma lower_app a b : Py.lower (a +:+ b) = Py.lower a +:+ Py.lower b.
Proof.
  induction a as [|c a IH]; [done|].
  rewrite append_cons. cbn [Py.lower]. by rewrite IH.
Qed.

Lemma prefix_app pat b : String.prefix pat (pat +:+ b) = true.
Proof.
  induction pat as [|c pat IH]; [by destruct b|].
  rewrite append_cons. cbn [String.prefix].
  by destruct (ascii_dec c c).
Qed.

Lemma str_in_app pat a b : Py.str_in pat (a +:+ pat +:+ b) = true.
Proof.
  induction a as [|c a IH].
  - change ("" +:+ pat +:+ b) with (pat +:+ b).
    destruct (pat +:+ b) eqn:Heq; cbn [Py.str_in];
      rewrite <- Heq, prefix_app; done.
  - rewrite append_cons. cbn [Py.str_in]. rewrite IH. by case_match.
Qed.

(** X14: both tests on member names ignore letter case: a name that
    contains one of the three keywords and ends in the [.mp4] suffix, in
    whatever mix of upper and lower case, is a video member and an
    accident-like one. *)
Theorem fetcher_matching_ignores_letter_case
    (before keyword between suffix : string) (data : bytes) :
  Py.lower keyword = "accident" ∨ Py.lower keyword = "crash"
    ∨ Py.lower keyword = "collision" →
  Py.lower suffix = ".mp4" →
  let m := Member (before +:+ keyword +:+ between +:+ suffix) data in
  download_sample_video.is_mp4 m = true ∧
  download_sample_video.accident_like m = true.
Proof.
  intros Hkw Hsfx m.
  unfold download_sample_video.is_mp4, download_sample_video.accident_like.
  cbn [name m]. rewrite !lower_app, Hsfx. split.
  - rewrite <- !append_assoc. apply endswith_app.
  - cbv zeta.
    destruct Hkw as [-> | [-> | ->]]; rewrite str_in_app;
      by rewrite ?orb_true_r.
Qed.

Lemma fetcher_matching_ignores_letter_case_witness :
  let m := Member ("clips/" +:+ "CRASH" +:+ "_01" +:+ ".Mp4") [x0b%byte] in
  download_sample_video.is_mp4 m = true ∧
  download_sample_video.accident_like m = true.
Proof.
  apply (fetcher_matching_ignores_letter_case "clips/" "CRASH" "_01" ".Mp4"
           [x0b%byte]).
  - right. left. reflexivity.
  - reflexivity.
Defined.

(** ** Fetcher: the selection, by suffix and keyword *)











(** ** Summarizer: what a run leaves behind *)

Section SummarizerRuns.

Variable Image_open : bytes → option Image.
Variable processor_from_pretrained : string → bool.
Variable model_from_pretrained : string → bool.
Variable generate : list message → Z → option string.

Abbreviation load' := (run_molmo2_frames.load_images Image_open).

Lemma slice_to_length {A} (n : Z) (l : list A) :
  length (Py.slice_to n l) = Py.slice_index n (length l).
Proof.
  unfold Py.slice_to. rewrite length_take. unfold Py.slice_index.
  destruct (Z.ltb_spec n 0); lia.
Qed.

(** X15: the Summarizer only reads: whatever the directory holds, the
    images decode to and the model does, the files and the directories
    after the run are those before it. *)
Theorem summarizer_never_changes_files args w :
  files (run_molmo2_frames.main Image_open processor_from_pretrained
           model_from_pretrained generate args w).2 = files w ∧
  dirs (run_molmo2_frames.main Image_open processor_from_pretrained
          model_from_pretrained generate args w).2 = dirs w.
Proof.
  rewrite summarize_run.
  destruct (Py.slice_to _ _) as [|fp fr]; [done|].
  destruct (load' _ w) as [[images|e] w1] eqn:Hload;
    pose proof (load_images_world _ _ _ _ _ Hload) as ->; [|done].
  destruct (processor_from_pretrained _); [|done].
  destruct (model_from_pretrained _); [|done].
  cbv zeta. by destruct (generate _ _).
Qed.

(** X16: a run that succeeds has sent one request -- the prompt with the
    images decoded from the capped listing, and the given token
    budget -- and printed one line, the text the model returned for that
    request. *)
Theorem summarizer_success_prints_generated_text args w w' :
  run_molmo2_frames.main Image_open processor_from_pretrained
    model_from_pretrained generate args w = (Ok tt, w') →
  ∃ images text,
    Forall2 (decoded Image_open w)
      (Py.slice_to (run_molmo2_frames.max_frames args)
                   (listing (run_molmo2_frames.frames args) w)) images ∧
    1 ≤ length images ∧
    generate (prompt_request images) (run_molmo2_frames.max_new_tokens args)
      = Some text ∧
    w' = World (files w) (dirs w)
           (log w ++ [EvGenerate (prompt_request images)
                                 (run_molmo2_frames.max_new_tokens args);
                      EvPrint text]).
Proof.
  rewrite summarize_run.
  destruct (Py.slice_to _ _) as [|fp fr] eqn:Hsel; [done|].
  destruct (load' _ w) as [[images|e] w1] eqn:Hload; [|done].
  pose proof (load_images_ok _ _ _ _ _ Hload) as Hdec.
  pose proof (load_images_world _ _ _ _ _ Hload) as ->.
  destruct (processor_from_pretrained _); [|done].
  destruct (model_from_pretrained _); [|done].
  cbv zeta. destruct (generate _ _) as [text|] eqn:Hgen; [|done].
  intros [= <-]. exists images, text. split; [done|]. split.
  { apply Forall2_length in Hdec. cbn in Hdec. lia. }
  split; [done|]. cbn [files dirs log]. by rewrite <- app_assoc.
Qed.

(** X17: a run that fails prints nothing, and unless the failure is the
    model's own it leaves no trace at all: the world is the one it
    started in, no request having been sent. *)
Theorem summarizer_failure_prints_nothing args w e w' :
  run_molmo2_frames.main Image_open processor_from_pretrained
    model_from_pretrained generate args w = (Raise e, w') →
  w' = w ∨
  ∃ images,
    e = ExternalError "generate" ∧
    w' = World (files w) (dirs w)
           (log w ++ [EvGenerate (prompt_request images)
                                 (run_molmo2_frames.max_new_tokens args)]).
Proof.
  rewrite summarize_run.
  destruct (Py.slice_to _ _) as [|fp fr] eqn:Hsel.
  { intros [= _ <-]. by left. }
  destruct (load' _ w) as [[images|e'] w1] eqn:Hload;
    pose proof (load_images_world _ _ _ _ _ Hload) as ->.
  2: { intros [= _ <-]. by left. }
  destruct (processor_from_pretrained _); [|intros [= _ <-]; by left].
  destruct (model_from_pretrained _); [|intros [= _ <-]; by left].
  cbv zeta. destruct (generate _ _) as [text|]; [done|].
  intros [= <- <-]. right. by exists images.
Qed.

(** X18: every request of a run carries at least one image and as many
    as the cap selects from the [.jpg] files of the directory: with a
    cap [N >= 0] that is [min(N, count)], so never more than [N]; with a
    negative cap it is [count + N]; and its token budget is
    [--max_new_tokens]. *)
Theorem summarizer_request_size_follows_cap args w r w' msgs n :
  run_molmo2_frames.main Image_open processor_from_pretrained
    model_from_pretrained generate args w = (r, w') →
  EvGenerate msgs n ∈ log w' → EvGenerate msgs n ∉ log w →
  let N := run_molmo2_frames.max_frames args in
  let count :=
    Z.of_nat (length (glob_files (run_molmo2_frames.frames args) ".jpg"
                                 (files w))) in
  ∃ images,
    msgs = prompt_request images ∧
    n = run_molmo2_frames.max_new_tokens args ∧
    1 ≤ length images ∧
    ((0 ≤ N)%Z → Z.of_nat (length images) = Z.min N count) ∧
    ((N < 0)%Z → Z.of_nat (length images) = (count + N)%Z).
Proof.
  intros Hrun Hin Hnot N count. rewrite summarize_run in Hrun.
  destruct (Py.slice_to _ _) as [|fp fr] eqn:Hsel.
  { injection Hrun as _ <-. done. }
  destruct (load' _ w) as [[images|e'] w1] eqn:Hload;
    pose proof (load_images_world _ _ _ _ _ Hload) as ->.
  2: { injection Hrun as _ <-. done. }
  pose proof (load_images_ok _ _ _ _ _ Hload) as Hdec.
  apply Forall2_length in Hdec. rewrite <- Hsel, slice_to_length in Hdec.
  rewrite listing_length in Hdec.
  assert (Hpos : 1 ≤ length images).
  { rewrite <- Hdec, <- listing_length, <- slice_to_length.
    fold N. fold N in Hsel. rewrite Hsel. cbn. lia. }
  destruct (processor_from_pretrained _); [|injection Hrun as _ <-; done].
  destruct (model_from_pretrained _); [|injection Hrun as _ <-; done].
  cbv zeta in Hrun.
  assert (Hreq : EvGenerate msgs n
                 = EvGenerate (prompt_request images)
                     (run_molmo2_frames.max_new_tokens args)).
  { destruct (generate _ _) as [text|]; injection Hrun as _ <-;
      cbn [log] in Hin;
      rewrite ?elem_of_app, ?list_elem_of_singleton in Hin;
      destruct Hin as [Hin|Hin]; try done.
    destruct Hin as [Hin|Hin]; done. }
  injection Hreq as -> ->. exists images.
  split; [done|]. split; [done|]. split; [done|].
  unfold Py.slice_index in Hdec. fold N count in Hdec.
  destruct (Z.ltb_spec N 0); split; lia.
Qed.

End SummarizerRuns.

Lemma summarizer_success_prints_generated_text_witness :
  let args := run_molmo2_frames.Build_Args "frames" 2 256 in
  let w' := (run_molmo2_frames.main decode_any always_loads always_loads
               canned_summary args three_frames).2 in
  ∃ images text,
    Forall2 (decoded decode_any three_frames)
      (Py.slice_to 2 (listing "frames" three_frames)) images ∧
    1 ≤ length images ∧
    canned_summary (prompt_request images) 256 = Some text ∧
    w' = World (files three_frames) (dirs three_frames)
           (log three_frames ++ [EvGenerate (prompt_request images) 256;
                                 EvPrint text]).
Proof.
  intros args w'.
  apply (summarizer_success_prints_generated_text
           decode_any always_loads always_loads canned_summary
           args three_frames w').
  vm_compute. reflexivity.
Defined.

Lemma summarizer_failure_prints_nothing_witness :
  let args := run_molmo2_frames.Build_Args "frames" 2 256 in
  let e := ExternalError "AutoProcessor.from_pretrained" in
  three_frames = three_frames ∨
  ∃ images,
    e = ExternalError "generate" ∧
    three_frames = World (files three_frames) (dirs three_frames)
           (log three_frames ++ [EvGenerate (prompt_request images) 256]).
Proof.
  intros args e.
  apply (summarizer_failure_prints_nothing
           decode_any never_loads always_loads canned_summary
           args three_frames e three_frames).
  vm_compute. reflexivity.
Defined.

Lemma summarizer_request_size_follows_cap_witness :
  let args := run_molmo2_frames.Build_Args "frames" 2 256 in
  let msgs := prompt_request [RGB [x01%byte]; RGB [x02%byte]] in
  ∃ images,
    msgs = prompt_request images ∧
    256%Z = run_molmo2_frames.max_new_tokens args ∧
    1 ≤ length images ∧
    ((0 ≤ 2)%Z →
     Z.of_nat (length images)
       = Z.min 2 (Z.of_nat (length (glob_files "frames" ".jpg"
                                      (files three_frames))))) ∧
    ((2 < 0)%Z →
     Z.of_nat (length images)
       = (Z.of_nat (length (glob_files "frames" ".jpg" (files three_frames)))
          + 2)%Z).
Proof.
  intros args msgs.
  apply (summarizer_request_size_follows_cap
           decode_any always_loads always_loads canned_summary
           args three_frames (Ok tt)
           (run_molmo2_frames.main decode_any always_loads always_loads
              canned_summary args three_frames).2 msgs 256).
  - vm_compute. reflexivity.
  - vm_compute. left.
  - apply not_elem_of_nil.
Defined.

(** ** The stages in sequence *)









